(** * accounts/models.py: the custom user model of foodOnline

    A shallow embedding of [UserManager], [User] and [UserProfile].

    Python objects become records, [None] becomes [option]'s [None], a
    raised exception becomes the [Raise] result of a small state-and-error
    monad whose state is the storage behind [Model.save].  The framework
    methods the source inherits ([normalize_email], [set_password]) are the
    fields of a type class, and the storage layer is modelled as the spec
    describes it: tables with unique and not-null constraints, selected by
    the [using] alias. *)

From Stdlib Require Import String Ascii List Bool NArith Lia.
Import ListNotations.
Open Scope string_scope.

(** ** Python values and exceptions *)

(** Truth value of a [str]-or-[None] argument: [None] and [''] are false. *)
Definition truthy (v : option string) : bool :=
  match v with
  | Some (String _ _) => true
  | Some EmptyString => false
  | None => false
  end.

Inductive exn : Type :=
  | ValueError (msg : string)
  | AttributeError (msg : string)
  | IntegrityError (constraint : string).

(** The two validation failures, under the names the spec gives them. *)
Definition MissingEmail : exn := ValueError "User must have an email address".
Definition MissingUsername : exn := ValueError "User must have an username".

Inductive result (A : Type) : Type :=
  | Ok (a : A)
  | Raise (e : exn).
Arguments Ok {A} a.
Arguments Raise {A} e.

Definition timestamp : Type := N.

(** ** The persisted row of the [User] table

    One column per declared field, the [password] column of
    [AbstractBaseUser] and the implicit [id] primary key.  Columns declared
    without [null=True] hold a value, so their types are not optional. *)
Module Row.
Record t : Type := mk {
  id : N;
  password : string;
  first_name : string;
  last_name : string;
  username : string;
  email : string;
  phone_number : string;
  role : option N;
  date_joined : timestamp;
  last_login : timestamp;
  created_date : timestamp;
  modified_date : timestamp;
  is_admin : bool;
  is_staff : bool;
  is_active : bool;
  is_Superadmin : bool
}.
End Row.

(** ** The storage behind [save] *)

Inductive write : Type :=
  | INSERT (alias : string) (r : Row.t)
  | UPDATE (alias : string) (r : Row.t).

Record World : Type := mkWorld {
  databases : string -> list Row.t;   (* the User table of each alias *)
  clock : timestamp;                  (* what timezone.now() returns *)
  writes : list write                 (* every write performed, oldest first *)
}.

(** ** State and exceptions *)

Definition M (A : Type) : Type := World -> result A * World.

Definition ret {A} (a : A) : M A := fun w => (Ok a, w).
Definition raise {A} (e : exn) : M A := fun w => (Raise e, w).
Definition bind {A B} (m : M A) (k : A -> M B) : M B :=
  fun w =>
    match m w with
    | (Ok a, w') => k a w'
    | (Raise e, w') => (Raise e, w')
    end.

Notation "x <- m ;; k" := (bind m (fun x => k))
  (at level 61, m at next level, right associativity).

(** ** The framework's methods the source inherits *)

Class Framework : Type := {
  (* BaseUserManager.normalize_email; accepts None and returns a str *)
  normalize_email : option string -> string;
  (* the hasher behind AbstractBaseUser.set_password *)
  make_password : option string -> string
}.

(** ** class User(AbstractBaseUser) *)
Module User.
Definition RESTAURANT : N := 1.
Definition CUSTOMER : N := 2.
Definition ROLE_CHOICE : list (N * string) :=
  [(RESTAURANT, "Restaurant"); (CUSTOMER, "Customer")].

(** The in-memory instance.  A field can hold [None] before it is saved
    even when its column cannot.  [is_superadmin] is not a declared
    field (the declared one is [is_Superadmin]): it is the instance
    attribute that an assignment to that name creates, absent until then. *)
Record t : Type := mk {
  id : option N;
  password : option string;
  first_name : option string;
  last_name : option string;
  username : option string;
  email : option string;
  phone_number : option string;
  role : option N;
  date_joined : option timestamp;
  last_login : option timestamp;
  created_date : option timestamp;
  modified_date : option timestamp;
  is_admin : bool;
  is_staff : bool;
  is_active : bool;
  is_Superadmin : bool;
  is_superadmin : option bool
}.

(** [User(email=..., username=..., first_name=..., last_name=...)]:
    the keyword arguments, and every other field at its default. *)
Definition model (email username first_name last_name : option string) : t :=
  {| id := None;
     password := None;
     first_name := first_name;
     last_name := last_name;
     username := username;
     email := email;
     phone_number := Some "";
     role := None;
     date_joined := None;
     last_login := None;
     created_date := None;
     modified_date := None;
     is_admin := false;
     is_staff := false;
     is_active := false;
     is_Superadmin := false;
     is_superadmin := None |}.

(** Attribute assignments. *)
Definition set_id (v : option N) (u : t) : t :=
  mk v (password u) (first_name u) (last_name u) (username u) (email u)
     (phone_number u) (role u) (date_joined u) (last_login u)
     (created_date u) (modified_date u) (is_admin u) (is_staff u)
     (is_active u) (is_Superadmin u) (is_superadmin u).

Definition set_password_field (v : option string) (u : t) : t :=
  mk (id u) v (first_name u) (last_name u) (username u) (email u)
     (phone_number u) (role u) (date_joined u) (last_login u)
     (created_date u) (modified_date u) (is_admin u) (is_staff u)
     (is_active u) (is_Superadmin u) (is_superadmin u).

Definition set_auto_now_add (v : option timestamp) (u : t) : t :=
  mk (id u) (password u) (first_name u) (last_name u) (username u) (email u)
     (phone_number u) (role u) v v v (modified_date u) (is_admin u)
     (is_staff u) (is_active u) (is_Superadmin u) (is_superadmin u).

Definition set_modified_date (v : option timestamp) (u : t) : t :=
  mk (id u) (password u) (first_name u) (last_name u) (username u) (email u)
     (phone_number u) (role u) (date_joined u) (last_login u)
     (created_date u) v (is_admin u) (is_staff u)
     (is_active u) (is_Superadmin u) (is_superadmin u).

Definition set_is_admin (v : bool) (u : t) : t :=
  mk (id u) (password u) (first_name u) (last_name u) (username u) (email u)
     (phone_number u) (role u) (date_joined u) (last_login u)
     (created_date u) (modified_date u) v (is_staff u)
     (is_active u) (is_Superadmin u) (is_superadmin u).

Definition set_is_staff (v : bool) (u : t) : t :=
  mk (id u) (password u) (first_name u) (last_name u) (username u) (email u)
     (phone_number u) (role u) (date_joined u) (last_login u)
     (created_date u) (modified_date u) (is_admin u) v
     (is_active u) (is_Superadmin u) (is_superadmin u).

Definition set_is_active (v : bool) (u : t) : t :=
  mk (id u) (password u) (first_name u) (last_name u) (username u) (email u)
     (phone_number u) (role u) (date_joined u) (last_login u)
     (created_date u) (modified_date u) (is_admin u) (is_staff u)
     v (is_Superadmin u) (is_superadmin u).

Definition set_is_Superadmin (v : bool) (u : t) : t :=
  mk (id u) (password u) (first_name u) (last_name u) (username u) (email u)
     (phone_number u) (role u) (date_joined u) (last_login u)
     (created_date u) (modified_date u) (is_admin u) (is_staff u)
     (is_active u) v (is_superadmin u).

Definition set_is_superadmin (v : bool) (u : t) : t :=
  mk (id u) (password u) (first_name u) (last_name u) (username u) (email u)
     (phone_number u) (role u) (date_joined u) (last_login u)
     (created_date u) (modified_date u) (is_admin u) (is_staff u)
     (is_active u) (is_Superadmin u) (Some v).

(** [AbstractBaseUser.set_password]: stores the hash, never the text. *)
Definition set_password {F : Framework} (raw_password : option string) (u : t) : t :=
  set_password_field (Some (make_password raw_password)) u.

Definition __str__ (self : t) : option string := email self.

Definition has_perm {Obj : Type} (self : t) (perm : string)
    (obj : option Obj) : bool :=
  is_admin self.

Definition has_module_perms (self : t) (app_label : string) : bool := true.
End User.

(** ** Model.save(using=...)

    Modelled from the spec: the storage collaborator ([Model.save] is
    framework code, not under src/).  It enforces the unique constraints on
    [email] and [username], refuses a null in a column that is not
    nullable, writes to the store that [using] selects, and stamps the
    [auto_now_add] fields on insert and the [auto_now] field on every save. *)
Module Storage.
(** [using or "default"]: no alias, or an empty one, selects the default store. *)
Definition db_for_write (alias : option string) : string :=
  match alias with
  | Some (String c s) => String c s
  | Some EmptyString => "default"
  | None => "default"
  end.

Definition set_table (alias : string) (table : list Row.t)
    (dbs : string -> list Row.t) : string -> list Row.t :=
  fun a => if String.eqb a alias then table else dbs a.

Definition has_id (k : N) (table : list Row.t) : bool :=
  existsb (fun r => N.eqb (Row.id r) k) table.

(** The key an AutoField takes on insert: one past the largest in use. *)
Definition next_id (table : list Row.t) : N :=
  N.succ (fold_right (fun r m => N.max (Row.id r) m) 0%N table).

(** The instance's column values; [None] when a column that is not
    nullable would receive a null. *)
Definition to_row (k : N) (u : User.t) : option Row.t :=
  match User.password u, User.first_name u, User.last_name u,
        User.username u, User.email u, User.phone_number u,
        User.date_joined u, User.last_login u, User.created_date u,
        User.modified_date u with
  | Some pw, Some fn, Some ln, Some un, Some em, Some ph,
    Some dj, Some ll, Some cd, Some md =>
      Some (Row.mk k pw fn ln un em ph (User.role u) dj ll cd md
              (User.is_admin u) (User.is_staff u) (User.is_active u)
              (User.is_Superadmin u))
  | _, _, _, _, _, _, _, _, _, _ => None
  end.

(** Whether a row other than the one keyed [k] already holds [r]'s email
    or username. *)
Definition conflicts (k : N) (r : Row.t) (table : list Row.t) : bool :=
  existsb (fun r' => negb (N.eqb (Row.id r') k)
                     && (String.eqb (Row.email r') (Row.email r)
                         || String.eqb (Row.username r') (Row.username r)))
          table.

Definition replace_row (r : Row.t) (table : list Row.t) : list Row.t :=
  map (fun r' => if N.eqb (Row.id r') (Row.id r) then r else r') table.

Definition insert (alias : string) (k : N) (self : User.t) : M User.t :=
  fun w =>
    let table := databases w alias in
    let self :=
      User.set_modified_date (Some (clock w))
        (User.set_auto_now_add (Some (clock w)) self) in
    match to_row k self with
    | None => (Raise (IntegrityError "NOT NULL"), w)
    | Some r =>
        if conflicts k r table then (Raise (IntegrityError "UNIQUE"), w)
        else (Ok (User.set_id (Some k) self),
              {| databases := set_table alias (table ++ [r]) (databases w);
                 clock := clock w;
                 writes := writes w ++ [INSERT alias r] |})
    end.

Definition update (alias : string) (k : N) (self : User.t) : M User.t :=
  fun w =>
    let table := databases w alias in
    let self := User.set_modified_date (Some (clock w)) self in
    match to_row k self with
    | None => (Raise (IntegrityError "NOT NULL"), w)
    | Some r =>
        if conflicts k r table then (Raise (IntegrityError "UNIQUE"), w)
        else (Ok self,
              {| databases := set_table alias (replace_row r table) (databases w);
                 clock := clock w;
                 writes := writes w ++ [UPDATE alias r] |})
    end.

(** An instance whose key names a stored row is updated; any other is
    inserted, under its own key when it has one. *)
Definition save (using_db : option string) (self : User.t) : M User.t :=
  fun w =>
    let alias := db_for_write using_db in
    match User.id self with
    | Some k =>
        if has_id k (databases w alias) then update alias k self w
        else insert alias k self w
    | None => insert alias (next_id (databases w alias)) self w
    end.
End Storage.

(** ** class UserManager(BaseUserManager) *)
Module UserManager.
Record t : Type := mk { _db : option string }.

Section Methods.
Context {F : Framework}.

Definition create_user (self : t)
    (first_name last_name username email password : option string)
    : M User.t :=
  if negb (truthy email) then raise MissingEmail
  else if negb (truthy username) then raise MissingUsername
  else
    let user :=
      User.model (Some (normalize_email email)) username
                 first_name last_name in
    let user := User.set_password password user in
    user <- Storage.save (_db self) user ;;
    ret user.

Definition create_superuser (self : t)
    (first_name last_name username email password : option string)
    : M User.t :=
  user <- create_user self first_name last_name username
            (Some (normalize_email email)) password ;;
  let user := User.set_is_admin true user in
  let user := User.set_is_active true user in
  let user := User.set_is_staff true user in
  let user := User.set_is_superadmin true user in
  user <- Storage.save (_db self) user ;;
  ret user.
End Methods.
End UserManager.

(** ** class UserProfile(models.Model) *)
Module UserProfile.
Record t : Type := mk {
  user : option User.t;
  profile_picture : option string;
  cover_photos : option string;
  address_line_1 : option string;
  address_line_2 : option string;
  country : option string;
  city : option string;
  pin_code : option string;
  latitude : option string;
  longitude : option string;
  created_at : option timestamp;
  modified_at : option timestamp
}.

(** [self.user.email]: reading an attribute of [None] raises. *)
Definition __str__ (self : t) : result (option string) :=
  match user self with
  | None => Raise (AttributeError "'NoneType' object has no attribute 'email'")
  | Some u => Ok (User.email u)
  end.
End UserProfile.

(** ** A framework to run the model on *)
Module Reference.
Definition lower_char (c : ascii) : ascii :=
  let n := nat_of_ascii c in
  if Nat.leb 65 n && Nat.leb n 90 then ascii_of_nat (n + 32) else c.

Fixpoint lower (s : string) : string :=
  match s with
  | EmptyString => EmptyString
  | String c s' => String (lower_char c) (lower s')
  end.

(** [s.rsplit("@", 1)]: the text before and after the last at sign. *)
Fixpoint rsplit_at (s : string) : option (string * string) :=
  match s with
  | EmptyString => None
  | String c s' =>
      match rsplit_at s' with
      | Some (name, domain) => Some (String c name, domain)
      | None => if Ascii.eqb c "@" then Some (EmptyString, s') else None
      end
  end.

(** Modelled from the spec: the email-normalization collaborator
    ([BaseUserManager.normalize_email] is framework code, not under
    src/).  It lowercases the domain part of an email address; an absent
    address normalizes to the empty string. *)
Definition normalize_email (email : option string) : string :=
  let email := match email with Some s => s | None => "" end in
  match rsplit_at email with
  | Some (name, domain) => name ++ "@" ++ lower domain
  | None => email
  end.

(** Modelled from the spec: the hashing collaborator (framework code, not
    under src/).  The algorithm is an external policy; this stand-in only
    marks its input, and gives an absent password the unusable marker. *)
Definition make_password (raw_password : option string) : string :=
  match raw_password with
  | Some p => "hashed$" ++ p
  | None => "!"
  end.

Definition framework : Framework :=
  Build_Framework normalize_email make_password.

(** A manager bound to no particular store, and a storage with no rows. *)
Definition objects : UserManager.t := UserManager.mk None.

Definition empty_world : World :=
  {| databases := fun _ => []; clock := 0%N; writes := [] |}.
End Reference.

(** ** Relations the statements use *)

(** [u'] carries the same identity fields, flags and extra attribute as [u]. *)
Definition same_data (u u' : User.t) : Prop :=
  User.email u' = User.email u /\
  User.username u' = User.username u /\
  User.is_admin u' = User.is_admin u /\
  User.is_staff u' = User.is_staff u /\
  User.is_active u' = User.is_active u /\
  User.is_Superadmin u' = User.is_Superadmin u /\
  User.is_superadmin u' = User.is_superadmin u.

(** Row [r] holds what instance [u] holds, column by column. *)
Definition stored_as (u : User.t) (r : Row.t) : Prop :=
  User.id u = Some (Row.id r) /\
  User.email u = Some (Row.email r) /\
  User.username u = Some (Row.username r) /\
  User.is_admin u = Row.is_admin r /\
  User.is_staff u = Row.is_staff r /\
  User.is_active u = Row.is_active r /\
  User.is_Superadmin u = Row.is_Superadmin r.

(** No stored row already holds this email or this username. *)
Definition unused (email : string) (username : option string)
    (table : list Row.t) : Prop :=
  forall r, In r table ->
    Row.email r <> email /\ Some (Row.username r) <> username.

(** The unique constraints of a [User] table: no two rows share a key,
    an email or a username. *)
Definition well_formed (table : list Row.t) : Prop :=
  NoDup (map Row.id table) /\
  NoDup (map Row.email table) /\
  NoDup (map Row.username table).

(** * Properties *)

(** ** The storage layer *)

Ltac split_options H :=
  repeat match type of H with
         | context [match ?x with Some _ => _ | None => _ end] =>
             destruct x; try discriminate H
         end.

Lemma to_row_stored k u r :
  Storage.to_row k u = Some r -> stored_as (User.set_id (Some k) u) r.
Proof.
  unfold Storage.to_row; intros E.
  destruct u; cbn in *.
  split_options E.
  injection E as <-.
  repeat split.
Qed.

Lemma set_table_same alias table dbs :
  Storage.set_table alias table dbs alias = table.
Proof.
  unfold Storage.set_table. now rewrite String.eqb_refl.
Qed.

Lemma has_id_last k r table :
  Row.id r = k -> Storage.has_id k (table ++ [r]) = true.
Proof.
  intros <-. unfold Storage.has_id.
  rewrite existsb_app; cbn.
  rewrite N.eqb_refl. now rewrite orb_true_r.
Qed.

Lemma conflicts_unused k r table :
  unused (Row.email r) (Some (Row.username r)) table ->
  Storage.conflicts k r table = false.
Proof.
  intros U. unfold Storage.conflicts.
  apply not_true_is_false; intros E.
  apply existsb_exists in E as (r' & Hin & E).
  destruct (U r' Hin) as [He Hu].
  apply andb_prop in E as [_ E].
  apply orb_prop in E as [E | E]; apply String.eqb_eq in E.
  - now apply He.
  - apply Hu. now rewrite E.
Qed.

(** What an insert that returns has done. *)
Lemma insert_Ok alias k u w u' w' :
  Storage.insert alias k u w = (Ok u', w') ->
  exists r,
    stored_as u' r /\ Row.id r = k /\ same_data u u' /\
    databases w' alias = (databases w alias ++ [r])%list /\
    writes w' = (writes w ++ [INSERT alias r])%list.
Proof.
  unfold Storage.insert; intros E.
  destruct (Storage.to_row k _) as [r|] eqn:Er; [|discriminate E].
  destruct (Storage.conflicts k r _); [discriminate E|].
  injection E as <- <-.
  exists r. pose proof (to_row_stored _ _ _ Er) as S.
  cbn. rewrite set_table_same.
  repeat split; try apply S.
  destruct S as [S _]. cbn in S. now injection S.
Qed.

(** What an update that returns has done. *)
Lemma update_Ok alias k u w u' w' :
  User.id u = Some k ->
  Storage.update alias k u w = (Ok u', w') ->
  exists r,
    stored_as u' r /\ Row.id r = k /\ same_data u u' /\
    databases w' alias = Storage.replace_row r (databases w alias) /\
    writes w' = (writes w ++ [UPDATE alias r])%list.
Proof.
  unfold Storage.update; intros Hk E.
  destruct (Storage.to_row k _) as [r|] eqn:Er; [|discriminate E].
  destruct (Storage.conflicts k r _); [discriminate E|].
  injection E as <- <-.
  exists r. pose proof (to_row_stored _ _ _ Er) as S.
  cbn. rewrite set_table_same.
  destruct S as (S0 & S). cbn in S0, S.
  repeat split; try apply S.
  - cbn. now rewrite Hk, S0.
  - now injection S0.
Qed.

(** The row an update writes is in the table afterwards. *)
Lemma replace_row_In r table :
  Storage.has_id (Row.id r) table = true ->
  In r (Storage.replace_row r table).
Proof.
  unfold Storage.has_id, Storage.replace_row.
  induction table as [|r' table IH]; cbn; [discriminate|].
  destruct (N.eqb (Row.id r') (Row.id r)); cbn.
  - intros _. now left.
  - intros E. right. now apply IH.
Qed.

(** A save that raises has written nothing. *)
Lemma save_Raise using_db u w e w' :
  Storage.save using_db u w = (Raise e, w') -> w' = w.
Proof.
  unfold Storage.save, Storage.update, Storage.insert; intros E.
  repeat match type of E with
         | context [match ?x with _ => _ end] => destruct x
         | context [if ?x then _ else _] => destruct x
         end;
    now (discriminate E || injection E).
Qed.

(** ** UserManager *)

Section Manager.
Context {F : Framework}.

Variable self : UserManager.t.
Variables first_name last_name username email password : option string.
Variable w : World.

Let alias : string := Storage.db_for_write (UserManager._db self).

(** What a [create_user] that returns has done: both checks passed, one
    row was inserted, and the instance is the constructed one as stored. *)
Lemma create_user_Ok u w' :
  UserManager.create_user self first_name last_name username email password w
    = (Ok u, w') ->
  truthy email = true /\ truthy username = true /\
  exists r,
    stored_as u r /\
    same_data (User.set_password password
                 (User.model (Some (normalize_email email)) username
                             first_name last_name)) u /\
    databases w' alias = (databases w alias ++ [r])%list /\
    writes w' = (writes w ++ [INSERT alias r])%list.
Proof.
  unfold UserManager.create_user, bind, ret, raise.
  destruct (truthy email); cbn; [|discriminate].
  destruct (truthy username); cbn; [|discriminate].
  unfold Storage.save; cbn.
  destruct (Storage.insert _ _ _ w) as [[u1|e] w1] eqn:E; [|discriminate].
  intros [= <- <-].
  apply insert_Ok in E as (r & S & _ & D & T & W).
  repeat split; trivial. now exists r.
Qed.

(** A [create_user] that raises has written nothing. *)
Lemma create_user_Raise e w' :
  UserManager.create_user self first_name last_name username email password w
    = (Raise e, w') ->
  w' = w.
Proof.
  unfold UserManager.create_user, bind, ret, raise.
  destruct (truthy email); cbn [negb]; [|now intros [= _ <-]].
  destruct (truthy username); cbn [negb]; [|now intros [= _ <-]].
  destruct (Storage.save _ _ w) as [[u1|e1] w1] eqn:E; [discriminate|].
  intros [= _ <-]. now apply save_Raise in E.
Qed.

(** With both identifiers given, both names present and neither
    identifier in use, [create_user] returns. *)
Lemma create_user_returns :
  truthy email = true -> truthy username = true ->
  first_name <> None -> last_name <> None ->
  unused (normalize_email email) username (databases w alias) ->
  exists u w',
    UserManager.create_user self first_name last_name username email password w
      = (Ok u, w').
Proof.
  intros He Hu Hf Hl U.
  unfold UserManager.create_user, bind, ret.
  rewrite He, Hu; cbn.
  destruct first_name as [fn|]; [|contradiction].
  destruct last_name as [ln|]; [|contradiction].
  destruct username as [un|]; [|discriminate].
  unfold Storage.save, Storage.insert; cbn.
  rewrite conflicts_unused by exact U.
  eexists; eexists; reflexivity.
Qed.
End Manager.

Section Creation.
Context {F : Framework}.

Variable self : UserManager.t.
Variables first_name last_name username email password : option string.
Variable w : World.

Let alias : string := Storage.db_for_write (UserManager._db self).

(** C2: when the email is empty or absent, [create_user] raises the
    missing-email error, and the storage it leaves is the storage it
    found: no row and no write was added before the error. *)
Theorem create_user_missing_email :
  email = None \/ email = Some "" ->
  UserManager.create_user self first_name last_name username email password w
    = (Raise MissingEmail, w)
  /\ MissingEmail = ValueError "User must have an email address".
Proof.
  intros [-> | ->]; split; reflexivity.
Qed.

(** C3: when the email is non-empty and the username is empty or absent,
    [create_user] raises the missing-username error and leaves the
    storage as it found it. *)
Theorem create_user_missing_username :
  truthy email = true ->
  username = None \/ username = Some "" ->
  UserManager.create_user self first_name last_name username email password w
    = (Raise MissingUsername, w)
  /\ MissingUsername = ValueError "User must have an username".
Proof.
  intros He Hu. unfold UserManager.create_user. rewrite He.
  destruct Hu as [-> | ->]; split; reflexivity.
Qed.

(** C9: when both the email and the username are empty or absent, the
    error raised is the missing-email one: the email check comes first. *)
Theorem create_user_email_checked_first :
  email = None \/ email = Some "" ->
  username = None \/ username = Some "" ->
  UserManager.create_user self first_name last_name username email password w
    = (Raise MissingEmail, w)
  /\ MissingEmail <> MissingUsername.
Proof.
  intros [-> | ->] _; split; try reflexivity; discriminate.
Qed.

(** C6: with a non-empty email and username, every account that
    [create_user] returns has its four status flags false (so it is
    inactive and [has_perm] refuses it), and the call does return one
    whenever the storage accepts the row: both names present and neither
    identifier in use. *)
Theorem create_user_flags_default :
  truthy email = true -> truthy username = true ->
  (forall u w',
      UserManager.create_user self first_name last_name username email
        password w = (Ok u, w') ->
      User.is_admin u = false /\ User.is_staff u = false /\
      User.is_active u = false /\ User.is_Superadmin u = false /\
      User.has_perm u "any" (@None unit) = false)
  /\ (first_name <> None -> last_name <> None ->
      unused (normalize_email email) username (databases w alias) ->
      exists u w',
        UserManager.create_user self first_name last_name username email
          password w = (Ok u, w')).
Proof.
  intros He Hu; split.
  - intros u w' E.
    apply create_user_Ok in E as (_ & _ & r & _ & D & _).
    destruct D as (_ & _ & Da & Ds & Dc & DS & _).
    unfold User.has_perm. rewrite Da, Ds, Dc, DS. now repeat split.
  - intros Hf Hl U. now apply create_user_returns.
Qed.

(** C10: the account [create_user] returns and the row it inserts hold
    the normalized email, and hold the username exactly as it was given. *)
Theorem create_user_normalizes_email_only u w' :
  UserManager.create_user self first_name last_name username email password w
    = (Ok u, w') ->
  User.email u = Some (normalize_email email) /\
  User.username u = username /\
  exists r,
    In r (databases w' alias) /\
    Row.email r = normalize_email email /\
    Some (Row.username r) = username.
Proof.
  unfold alias; intros E.
  apply create_user_Ok in E as (_ & _ & r & S & D & T & _).
  destruct D as (De & Du & _). cbn in De, Du.
  destruct S as (_ & Se & Su & _).
  repeat split; trivial.
  exists r. rewrite T. repeat split.
  - apply in_or_app; right; now left.
  - rewrite Se in De. now injection De.
  - now rewrite <- Su.
Qed.

(** What a [create_superuser] that returns has done: the delegated
    [create_user] returned [u1] and inserted [r1]; the four assignments
    were made on [u1]; the second save updated that row to [r2]. *)
Lemma create_superuser_Ok u w' :
  UserManager.create_superuser self first_name last_name username email
    password w = (Ok u, w') ->
  exists u1 w1 r1 r2,
    UserManager.create_user self first_name last_name username
      (Some (normalize_email email)) password w = (Ok u1, w1) /\
    stored_as u1 r1 /\
    same_data (User.set_password password
                 (User.model
                    (Some (normalize_email (Some (normalize_email email))))
                    username first_name last_name)) u1 /\
    writes w1 = (writes w ++ [INSERT alias r1])%list /\
    stored_as u r2 /\
    same_data (User.set_is_superadmin true
                 (User.set_is_staff true
                    (User.set_is_active true
                       (User.set_is_admin true u1)))) u /\
    In r2 (databases w' alias) /\
    writes w' = (writes w1 ++ [UPDATE alias r2])%list.
Proof.
  unfold alias, UserManager.create_superuser, bind, ret.
  destruct (UserManager.create_user _ _ _ _ _ _ w) as [[u1|e] w1] eqn:E1;
    [|discriminate].
  destruct (Storage.save _ _ w1) as [[u2|e] w2] eqn:E2; [|discriminate].
  intros [= <- <-].
  apply create_user_Ok in E1 as H1.
  destruct H1 as (_ & _ & r1 & S1 & D1 & T1 & W1).
  pose proof S1 as (Sid & _).
  unfold Storage.save in E2. cbn [User.id User.set_is_superadmin
    User.set_is_staff User.set_is_active User.set_is_admin] in E2.
  rewrite Sid in E2.
  rewrite T1, has_id_last in E2 by reflexivity.
  apply update_Ok in E2 as (r2 & S2 & K2 & D2 & T2 & W2); [|exact Sid].
  exists u1, w1, r1, r2.
  repeat split; trivial; try apply S1; try apply D1; try apply S2;
    try apply D2.
  rewrite T2, T1. apply replace_row_In.
  rewrite K2. now apply has_id_last.
Qed.

(** C7: a [create_superuser] that returns has written twice and no
    more: the insert made inside the delegated [create_user], whose row
    has the flags still false, then one update made after the flags were
    assigned, whose row has them set. *)
Theorem create_superuser_two_writes u w' :
  UserManager.create_superuser self first_name last_name username email
    password w = (Ok u, w') ->
  exists u1 w1 r1 r2,
    UserManager.create_user self first_name last_name username
      (Some (normalize_email email)) password w = (Ok u1, w1) /\
    writes w1 = (writes w ++ [INSERT alias r1])%list /\
    writes w' = (writes w1 ++ [UPDATE alias r2])%list /\
    length (writes w') = length (writes w) + 2 /\
    Row.is_admin r1 = false /\ Row.is_active r1 = false /\
    Row.is_staff r1 = false /\
    Row.is_admin r2 = true /\ Row.is_active r2 = true /\
    Row.is_staff r2 = true.
Proof.
  intros E.
  apply create_superuser_Ok in E
    as (u1 & w1 & r1 & r2 & E1 & S1 & D1 & W1 & S2 & D2 & _ & W2).
  destruct S1 as (_ & _ & _ & Sa & Ss & Sc & _).
  destruct D1 as (_ & _ & Da & Ds & Dc & _). cbn in Da, Ds, Dc.
  destruct S2 as (_ & _ & _ & Ra & Rs & Rc & _).
  destruct D2 as (_ & _ & Ea & Es & Ec & _). cbn in Ea, Es, Ec.
  exists u1, w1, r1, r2.
  repeat split; trivial; try congruence.
  rewrite W2, W1, !length_app; cbn. lia.
Qed.

(** On every returning call the three assignments to declared fields
    reach the account and its row; the fourth, to [is_superadmin], does
    not reach the declared [is_Superadmin]. *)
Lemma create_superuser_flags u w' :
  UserManager.create_superuser self first_name last_name username email
    password w = (Ok u, w') ->
  User.is_admin u = true /\ User.is_active u = true /\
  User.is_staff u = true /\
  User.is_Superadmin u = false /\ User.is_superadmin u = Some true /\
  exists r,
    In r (databases w' alias) /\ stored_as u r /\
    Row.is_Superadmin r = false.
Proof.
  intros E.
  apply create_superuser_Ok in E
    as (u1 & w1 & r1 & r2 & _ & _ & D1 & _ & S2 & D2 & I2 & _).
  destruct D1 as (_ & _ & _ & _ & _ & DS & _). cbn in DS.
  destruct D2 as (_ & _ & Ea & Es & Ec & ES & Ee). cbn in Ea, Es, Ec, ES, Ee.
  assert (User.is_Superadmin u = false) as HS by congruence.
  repeat split; trivial.
  exists r2. split; [exact I2|]. split; [exact S2|].
  destruct S2 as (_ & _ & _ & _ & _ & _ & RS). congruence.
Qed.
End Creation.

(** ** User and UserProfile *)

(** C4: [has_perm] answers true exactly when [is_admin] is true, whatever
    permission and object are asked about and whatever the other three
    status flags hold. *)
Theorem has_perm_iff_is_admin {Obj : Type} (self : User.t) (perm : string)
    (obj : option Obj) :
  (User.has_perm self perm obj = true <-> User.is_admin self = true) /\
  (forall (Obj' : Type) (perm' : string) (obj' : option Obj')
          (staff active superadmin : bool),
      User.has_perm
        (User.set_is_staff staff
           (User.set_is_active active
              (User.set_is_Superadmin superadmin self)))
        perm' obj'
      = User.has_perm self perm obj).
Proof.
  split.
  - reflexivity.
  - intros; reflexivity.
Qed.

(** C5: [has_module_perms] answers true for every account and every
    application label. *)
Theorem has_module_perms_always (self : User.t) (app_label : string) :
  User.has_module_perms self app_label = true.
Proof.
  reflexivity.
Qed.

(** C8: the string representation of a profile with no account attached
    fails with an attribute error on [None]; with an account attached it is
    that account's email. *)
Theorem profile_str_follows_user (self : UserProfile.t) :
  (UserProfile.user self = None ->
   UserProfile.__str__ self
     = Raise (AttributeError "'NoneType' object has no attribute 'email'"))
  /\ (forall u, UserProfile.user self = Some u ->
        UserProfile.__str__ self = Ok (User.email u)
        /\ User.__str__ u = User.email u).
Proof.
  unfold UserProfile.__str__; split.
  - now intros ->.
  - intros u ->. now split.
Qed.

(** ** create_superuser and the superadmin flag *)

(** C1: [create_superuser] sets [is_admin], [is_active] and [is_staff],
    but on every returning call the declared flag [is_Superadmin] stays
    false on the returned account and in the stored row: the assignment
    goes to the attribute [is_superadmin], which is not a field.  The
    second part runs the call on a valid input. *)
Theorem create_superuser_leaves_is_Superadmin_false :
  (forall (F : Framework) self first_name last_name username email password
          w u w',
      UserManager.create_superuser self first_name last_name username email
        password w = (Ok u, w') ->
      User.is_admin u = true /\ User.is_active u = true /\
      User.is_staff u = true /\
      User.is_Superadmin u = false /\ User.is_superadmin u = Some true /\
      exists r,
        In r (databases w' (Storage.db_for_write (UserManager._db self))) /\
        stored_as u r /\ Row.is_Superadmin r = false)
  /\ (exists u w' r,
        UserManager.create_superuser (F := Reference.framework)
          Reference.objects (Some "Jane") (Some "Doe") (Some "jane@x.com")
          (Some "jane@x.com") (Some "secret123") Reference.empty_world
          = (Ok u, w') /\
        User.is_admin u = true /\ User.is_active u = true /\
        User.is_staff u = true /\
        User.is_Superadmin u = false /\ User.is_superadmin u = Some true /\
        databases w' "default" = [r] /\ Row.is_Superadmin r = false).
Proof.
  split.
  - intros F self fn ln un em pw w u w'. apply create_superuser_flags.
  - do 3 eexists. vm_compute. repeat split.
Qed.

(** ** The statements at concrete inputs *)

Lemma create_user_missing_email_absent :
  UserManager.create_user (F := Reference.framework) Reference.objects
    (Some "Jane") (Some "Doe") (Some "jane@x.com") None (Some "secret123")
    Reference.empty_world
  = (Raise (ValueError "User must have an email address"),
     Reference.empty_world).
Proof.
  apply (create_user_missing_email (F := Reference.framework)).
  left; reflexivity.
Defined.

Lemma create_user_missing_username_empty :
  UserManager.create_user (F := Reference.framework) Reference.objects
    (Some "Jane") (Some "Doe") (Some "") (Some "jane@x.com")
    (Some "secret123") Reference.empty_world
  = (Raise (ValueError "User must have an username"), Reference.empty_world).
Proof.
  apply (create_user_missing_username (F := Reference.framework)).
  - reflexivity.
  - right; reflexivity.
Defined.

Lemma create_user_both_missing :
  UserManager.create_user (F := Reference.framework) Reference.objects
    (Some "Jane") (Some "Doe") None (Some "") (Some "secret123")
    Reference.empty_world
  = (Raise (ValueError "User must have an email address"),
     Reference.empty_world).
Proof.
  apply (create_user_email_checked_first (F := Reference.framework)).
  - right; reflexivity.
  - left; reflexivity.
Defined.

Lemma create_user_jane_inactive :
  exists u w',
    UserManager.create_user (F := Reference.framework) Reference.objects
      (Some "Jane") (Some "Doe") (Some "jane@x.com") (Some "jane@x.com")
      (Some "secret123") Reference.empty_world = (Ok u, w') /\
    User.is_active u = false /\
    User.has_perm u "any" (@None unit) = false.
Proof.
  destruct (create_user_flags_default (F := Reference.framework)
              Reference.objects (Some "Jane") (Some "Doe")
              (Some "jane@x.com") (Some "jane@x.com") (Some "secret123")
              Reference.empty_world eq_refl eq_refl) as [Flags Returns].
  destruct Returns as (u & w' & E).
  - discriminate.
  - discriminate.
  - intros r [].
  - exists u, w'. split; [exact E|].
    destruct (Flags u w' E) as (_ & _ & Hc & _ & Hp). now split.
Defined.

Lemma create_user_keeps_username_case :
  exists u w' r,
    UserManager.create_user (F := Reference.framework) Reference.objects
      (Some "Jane") (Some "Doe") (Some "Jane@X.COM") (Some "Jane@X.COM")
      (Some "secret123") Reference.empty_world = (Ok u, w') /\
    User.email u = Some "Jane@x.com" /\
    User.username u = Some "Jane@X.COM" /\
    In r (databases w' "default") /\
    Row.email r = "Jane@x.com" /\ Row.username r = "Jane@X.COM".
Proof.
  destruct (UserManager.create_user (F := Reference.framework)
              Reference.objects (Some "Jane") (Some "Doe")
              (Some "Jane@X.COM") (Some "Jane@X.COM") (Some "secret123")
              Reference.empty_world) as [[u|e] w'] eqn:E;
    [|vm_compute in E; discriminate E].
  destruct (create_user_normalizes_email_only (F := Reference.framework)
              _ _ _ _ _ _ _ _ _ E) as (He & Hu & r & Hin & Re & Ru).
  exists u, w', r. injection Ru as Ru.
  split; [reflexivity|].
  split; [exact He|].
  split; [exact Hu|].
  split; [exact Hin|].
  split; [exact Re|exact Ru].
Defined.

Lemma create_superuser_jane_two_writes :
  exists u w',
    UserManager.create_superuser (F := Reference.framework) Reference.objects
      (Some "Jane") (Some "Doe") (Some "jane@x.com") (Some "jane@x.com")
      (Some "secret123") Reference.empty_world = (Ok u, w') /\
    length (writes w') = 2.
Proof.
  destruct (UserManager.create_superuser (F := Reference.framework)
              Reference.objects (Some "Jane") (Some "Doe")
              (Some "jane@x.com") (Some "jane@x.com") (Some "secret123")
              Reference.empty_world) as [[u|e] w'] eqn:E;
    [|vm_compute in E; discriminate E].
  destruct (create_superuser_two_writes (F := Reference.framework)
              _ _ _ _ _ _ _ _ _ E) as (u1 & w1 & r1 & r2 & _ & _ & _ & L & _).
  exists u, w'. split; [reflexivity|exact L].
Defined.

Lemma profile_str_examples :
  let jane :=
    User.model (Some "jane@x.com") (Some "jane") (Some "Jane") (Some "Doe") in
  let blank (u : option User.t) :=
    UserProfile.mk u None None None None None None None None None None None in
  UserProfile.__str__ (blank None)
    = Raise (AttributeError "'NoneType' object has no attribute 'email'")
  /\ UserProfile.__str__ (blank (Some jane)) = Ok (Some "jane@x.com").
Proof.
  intros jane blank. split.
  - apply (proj1 (profile_str_follows_user (blank None))). reflexivity.
  - apply (proj2 (profile_str_follows_user (blank (Some jane))) jane).
    reflexivity.
Defined.

(** * Further properties *)

(** ** The storage layer, in more detail *)

(** Every key in use is below the one the next insert takes. *)
Lemma next_id_fresh r table :
  In r table -> (Row.id r < Storage.next_id table)%N.
Proof.
  unfold Storage.next_id.
  induction table as [|r' table IH]; cbn; [contradiction|].
  intros [-> | Hin].
  - lia.
  - specialize (IH Hin). lia.
Qed.

(** Replacing the row of a key no stored row has changes nothing. *)
Lemma replace_row_fresh r table :
  (forall r', In r' table -> Row.id r' <> Row.id r) ->
  Storage.replace_row r table = table.
Proof.
  unfold Storage.replace_row.
  induction table as [|r' table IH]; cbn; intros Fresh; [reflexivity|].
  destruct (N.eqb_spec (Row.id r') (Row.id r)) as [E | _].
  - exfalso. apply (Fresh r'); [now left | exact E].
  - f_equal. apply IH. intros r'' Hin. apply Fresh. now right.
Qed.

(** Replacing the last row, when it is the only one under that key. *)
Lemma replace_row_last r r1 table :
  Row.id r1 = Row.id r ->
  (forall r', In r' table -> Row.id r' <> Row.id r) ->
  Storage.replace_row r (table ++ [r1]) = (table ++ [r])%list.
Proof.
  intros K Fresh.
  pose proof (replace_row_fresh r table Fresh) as E.
  unfold Storage.replace_row in *.
  rewrite map_app, E; cbn.
  now rewrite K, N.eqb_refl.
Qed.

(** The unique check reads the email and the username of the row only,
    and never holds a row against itself. *)
Lemma conflicts_own_row k r1 r2 table :
  Row.id r1 = k ->
  Row.email r2 = Row.email r1 -> Row.username r2 = Row.username r1 ->
  Storage.conflicts k r2 (table ++ [r1]) = Storage.conflicts k r1 table.
Proof.
  intros K E U. unfold Storage.conflicts.
  rewrite existsb_app; cbn.
  rewrite K, N.eqb_refl, E, U; cbn.
  now rewrite orb_false_r.
Qed.

(** What a passed unique check says about each stored row. *)
Lemma conflicts_false k r table r' :
  Storage.conflicts k r table = false ->
  In r' table -> Row.id r' <> k ->
  Row.email r' <> Row.email r /\ Row.username r' <> Row.username r.
Proof.
  unfold Storage.conflicts; intros C Hin K.
  assert (negb (N.eqb (Row.id r') k)
          && (String.eqb (Row.email r') (Row.email r)
              || String.eqb (Row.username r') (Row.username r)) = false) as E.
  { apply not_true_is_false; intros T.
    rewrite (proj2 (existsb_exists _ _)) in C; [discriminate|].
    exists r'. now split. }
  apply N.eqb_neq in K. rewrite K in E; cbn in E.
  apply orb_false_elim in E as [Ee Eu].
  split; [now apply String.eqb_neq | now apply String.eqb_neq].
Qed.

(** A stored row with the same email or username, under another key,
    fails the unique check. *)
Lemma conflicts_true k r table r' :
  In r' table -> Row.id r' <> k ->
  Row.email r' = Row.email r \/ Row.username r' = Row.username r ->
  Storage.conflicts k r table = true.
Proof.
  unfold Storage.conflicts; intros Hin K E.
  apply existsb_exists. exists r'. split; [exact Hin|].
  apply N.eqb_neq in K. rewrite K; cbn.
  destruct E as [E | E]; rewrite E, String.eqb_refl; cbn;
    [reflexivity | apply orb_true_r].
Qed.

Lemma set_table_other alias table dbs a :
  a <> alias -> Storage.set_table alias table dbs a = dbs a.
Proof.
  unfold Storage.set_table; intros N.
  apply String.eqb_neq in N. now rewrite N.
Qed.

(** Appending a row whose key, email and username are new keeps the
    unique constraints. *)
Lemma well_formed_app table r :
  well_formed table ->
  (forall r', In r' table ->
     Row.id r' <> Row.id r /\ Row.email r' <> Row.email r /\
     Row.username r' <> Row.username r) ->
  well_formed (table ++ [r]).
Proof.
  intros (Wi & We & Wu) New. unfold well_formed.
  rewrite !map_app; cbn.
  repeat split; (apply NoDup_app; [assumption | apply NoDup_cons;
    [intros [] | constructor] |]);
    intros x Hx [<- | []]; apply in_map_iff in Hx as (r' & E & Hin);
    destruct (New r' Hin) as (Ni & Ne & Nu); congruence.
Qed.

(** ** What each creation call comes to *)

Section Outcomes.
Context {F : Framework}.

Variable self : UserManager.t.
Variables first_name last_name username email password : option string.
Variable w : World.

Let alias : string := Storage.db_for_write (UserManager._db self).
Let table : list Row.t := databases w alias.
Let k : N := Storage.next_id table.
Let now : timestamp := clock w.

(** [create_user], case by case: the two validation errors, the null
    refused by the storage, the unique check, and the insert. *)
Lemma create_user_cases :
  UserManager.create_user self first_name last_name username email password w
  = if negb (truthy email) then (Raise MissingEmail, w)
    else if negb (truthy username) then (Raise MissingUsername, w)
    else
      match first_name, last_name, username with
      | Some fn, Some ln, Some un =>
          let r :=
            Row.mk k (make_password password) fn ln un
                   (normalize_email email) "" None now now now now
                   false false false false in
          if Storage.conflicts k r table
          then (Raise (IntegrityError "UNIQUE"), w)
          else
            (Ok (User.mk (Some k) (Some (make_password password)) (Some fn)
                         (Some ln) (Some un) (Some (normalize_email email))
                         (Some "") None (Some now) (Some now) (Some now)
                         (Some now) false false false false None),
             {| databases :=
                  Storage.set_table alias (table ++ [r]) (databases w);
                clock := now;
                writes := writes w ++ [INSERT alias r] |})
      | _, _, _ => (Raise (IntegrityError "NOT NULL"), w)
      end.
Proof.
  unfold UserManager.create_user, bind, ret, raise, k, table, alias, now.
  destruct (truthy email); cbn [negb]; [|reflexivity].
  destruct username as [[|c un]|]; cbn [negb truthy]; try reflexivity.
  unfold Storage.save, Storage.insert; cbn.
  destruct first_name as [fn|], last_name as [ln|]; cbn; try reflexivity.
  now destruct (Storage.conflicts _ _ _).
Qed.

End Outcomes.

Section SuperuserOutcomes.
Context {F : Framework}.

Variable self : UserManager.t.
Variables first_name last_name username email password : option string.
Variable w : World.

Let alias : string := Storage.db_for_write (UserManager._db self).
Let table : list Row.t := databases w alias.
Let k : N := Storage.next_id table.
Let now : timestamp := clock w.

(** [create_superuser], case by case.  The errors are those of the
    delegated [create_user] on the normalized email; past them the second
    save finds the inserted row and updates it, and its unique check
    cannot fail, the row being the instance's own. *)
Lemma create_superuser_cases :
  UserManager.create_superuser self first_name last_name username email
    password w
  = let em := normalize_email email in
    if negb (truthy (Some em)) then (Raise MissingEmail, w)
    else if negb (truthy username) then (Raise MissingUsername, w)
    else
      match first_name, last_name, username with
      | Some fn, Some ln, Some un =>
          let r1 :=
            Row.mk k (make_password password) fn ln un
                   (normalize_email (Some em)) "" None now now now now
                   false false false false in
          let r2 :=
            Row.mk k (make_password password) fn ln un
                   (normalize_email (Some em)) "" None now now now now
                   true true true false in
          if Storage.conflicts k r1 table
          then (Raise (IntegrityError "UNIQUE"), w)
          else
            (Ok (User.mk (Some k) (Some (make_password password)) (Some fn)
                         (Some ln) (Some un)
                         (Some (normalize_email (Some em)))
                         (Some "") None (Some now) (Some now) (Some now)
                         (Some now) true true true false (Some true)),
             {| databases :=
                  Storage.set_table alias
                    (Storage.replace_row r2 (table ++ [r1]))
                    (Storage.set_table alias (table ++ [r1]) (databases w));
                clock := now;
                writes := (writes w ++ [INSERT alias r1])
                            ++ [UPDATE alias r2] |})
      | _, _, _ => (Raise (IntegrityError "NOT NULL"), w)
      end.
Proof.
  unfold UserManager.create_superuser, bind.
  rewrite create_user_cases. fold alias table k now. cbv zeta.
  destruct (truthy (Some (normalize_email email))); cbn [negb];
    [|reflexivity].
  destruct (truthy username); cbn [negb]; [|reflexivity].
  destruct first_name as [fn|], last_name as [ln|], username as [un|];
    try reflexivity.
  destruct (Storage.conflicts k _ table) eqn:C; [reflexivity|].
  unfold ret, Storage.save.
  cbn [User.id User.set_is_superadmin User.set_is_staff User.set_is_active
       User.set_is_admin databases].
  fold alias. rewrite set_table_same, has_id_last by reflexivity.
  unfold Storage.update.
  cbn -[Storage.conflicts Storage.replace_row Storage.set_table].
  rewrite set_table_same, conflicts_own_row by reflexivity.
  fold alias table k now. now rewrite C.
Qed.
End SuperuserOutcomes.

(** Splits an equation on a creation call's outcome into its cases. *)
Ltac outcome_cases E :=
  cbv zeta in E;
  repeat match type of E with
         | (if negb (truthy ?x) then _ else _) = _ =>
             let T := fresh "T" in
             destruct (truthy x) eqn:T; cbn [negb] in E
         | (match ?x with Some _ => _ | None => _ end) = _ => destruct x
         | (if Storage.conflicts ?a ?b ?c then _ else _) = _ =>
             let C := fresh "C" in
             destruct (Storage.conflicts a b c) eqn:C
         end;
  try discriminate E.

Lemma truthy_nonempty v :
  truthy v = true -> exists c s, v = Some (String c s).
Proof.
  destruct v as [[|c s]|]; try discriminate. intros _. now exists c, s.
Qed.

(** ** create_user *)

Section UserCreated.
Context {F : Framework}.

Variable self : UserManager.t.
Variables first_name last_name username email password : option string.
Variable w : World.

Let alias : string := Storage.db_for_write (UserManager._db self).
Let table : list Row.t := databases w alias.


(** X2: [create_user] returns an account only for a non-empty email and
    a non-empty username, and then the account carries the two names and
    the username it was given. *)
Theorem create_user_Ok_identifiers u w' :
  UserManager.create_user self first_name last_name username email password w
    = (Ok u, w') ->
  (exists c s, email = Some (String c s)) /\
  (exists c s, username = Some (String c s)) /\
  User.first_name u = first_name /\ User.last_name u = last_name /\
  User.username u = username.
Proof.
  intros E. rewrite create_user_cases in E. outcome_cases E.
  injection E as <- <-; cbn.
  repeat split; trivial; now apply truthy_nonempty.
Qed.

(** X3: a returning [create_user] appends one row to the table of the
    manager's store, under a key no stored row has and which becomes the
    account's [id]; the rows already stored, the tables of the other
    stores and the clock are left as they were. *)
Theorem create_user_appends_row u w' :
  UserManager.create_user self first_name last_name username email password w
    = (Ok u, w') ->
  exists r,
    databases w' alias = (table ++ [r])%list /\
    User.id u = Some (Row.id r) /\
    (forall r', In r' table -> Row.id r' <> Row.id r) /\
    (forall a, a <> alias -> databases w' a = databases w a) /\
    clock w' = clock w.
Proof.
  unfold table, alias; intros E.
  rewrite create_user_cases in E. outcome_cases E.
  injection E as <- <-; cbn.
  eexists. rewrite set_table_same.
  split; [reflexivity|]. split; [reflexivity|]. cbn.
  split; [|split; [|reflexivity]].
  - intros r' Hin. apply next_id_fresh in Hin. lia.
  - intros a Na. now apply set_table_other.
Qed.

(** A stored row that already holds the normalized email or the
    username fails the insert of [create_user]. *)
Lemma create_user_conflict r :
  truthy email = true -> truthy username = true ->
  first_name <> None -> last_name <> None ->
  In r table ->
  Row.email r = normalize_email email \/ Some (Row.username r) = username ->
  UserManager.create_user self first_name last_name username email password w
    = (Raise (IntegrityError "UNIQUE"), w).
Proof.
  unfold table, alias; intros Te Tu Nf Nl Hin Dup.
  rewrite create_user_cases. cbv zeta. rewrite Te, Tu; cbn [negb].
  destruct first_name as [fn|]; [|contradiction].
  destruct last_name as [ln|]; [|contradiction].
  destruct username as [un|]; [|discriminate].
  erewrite conflicts_true; [reflexivity | exact Hin | |].
  - apply next_id_fresh in Hin. lia.
  - cbn. destruct Dup as [D | D]; [now left | right; now injection D].
Qed.

(** X4: with both identifiers given and both names present, a stored
    row that already holds the normalized email or the username makes
    [create_user] raise the storage's integrity error, and nothing is
    written. *)
Theorem create_user_duplicate_rejected r :
  truthy email = true -> truthy username = true ->
  first_name <> None -> last_name <> None ->
  In r table ->
  Row.email r = normalize_email email \/ Some (Row.username r) = username ->
  UserManager.create_user self first_name last_name username email password w
    = (Raise (IntegrityError "UNIQUE"), w).
Proof.
  exact (create_user_conflict r).
Qed.


(** X6: the account [create_user] returns has no role and an empty
    phone number, and so has its row: neither is among the arguments. *)
Theorem create_user_role_unset u w' :
  UserManager.create_user self first_name last_name username email password w
    = (Ok u, w') ->
  User.role u = None /\ User.phone_number u = Some "" /\
  exists r,
    databases w' alias = (table ++ [r])%list /\
    Row.role r = None /\ Row.phone_number r = "".
Proof.
  unfold table, alias; intros E.
  rewrite create_user_cases in E. outcome_cases E.
  injection E as <- <-; cbn. repeat split.
  eexists. rewrite set_table_same. repeat split.
Qed.
End UserCreated.

(** X7: after a [create_user] that returned, a second call on the same
    manager whose email normalizes to the same address, or whose username
    is the same, raises the storage's integrity error and writes nothing. *)
Theorem create_user_twice_rejected {F : Framework} (self : UserManager.t)
    (first_name last_name username email password : option string)
    (first_name' last_name' username' email' password' : option string)
    (w w1 : World) (u : User.t) :
  UserManager.create_user self first_name last_name username email password w
    = (Ok u, w1) ->
  truthy email' = true -> truthy username' = true ->
  first_name' <> None -> last_name' <> None ->
  normalize_email email' = normalize_email email \/ username' = username ->
  UserManager.create_user self first_name' last_name' username' email'
    password' w1
    = (Raise (IntegrityError "UNIQUE"), w1).
Proof.
  intros E Te Tu Nf Nl Same.
  rewrite create_user_cases in E. outcome_cases E.
  injection E as _ <-.
  match goal with
  | _ : Storage.conflicts _ ?r _ = false |- _ =>
      apply (create_user_conflict _ _ _ _ _ _ _ r); trivial
  end.
  - cbn. rewrite set_table_same. apply in_or_app; right; now left.
  - cbn. destruct Same as [-> | ->]; [now left | now right].
Qed.

(** ** create_superuser *)

Section SuperuserCreated.
Context {F : Framework}.

Variable self : UserManager.t.
Variables first_name last_name username email password : option string.
Variable w : World.

Let alias : string := Storage.db_for_write (UserManager._db self).
Let table : list Row.t := databases w alias.

(** X8: [create_superuser] normalizes the email before delegating and
    [create_user] normalizes it again: the account and its row hold the
    email normalized twice, and the username as given. *)
Theorem create_superuser_normalizes_twice u w' :
  UserManager.create_superuser self first_name last_name username email
    password w = (Ok u, w') ->
  User.email u = Some (normalize_email (Some (normalize_email email))) /\
  User.username u = username /\
  exists r,
    In r (databases w' alias) /\
    Row.email r = normalize_email (Some (normalize_email email)) /\
    Some (Row.username r) = username.
Proof.
  unfold alias; intros E.
  rewrite create_superuser_cases in E. outcome_cases E.
  injection E as <- <-; cbn. split; [reflexivity|]. split; [reflexivity|].
  eexists. rewrite set_table_same. split.
  - apply replace_row_In. now apply has_id_last.
  - now split.
Qed.

(** X9: when the email normalizes to the empty string, as an absent one
    does, [create_superuser] raises the missing-email error of the
    delegated [create_user] and writes nothing. *)
Theorem create_superuser_missing_email :
  normalize_email email = "" ->
  UserManager.create_superuser self first_name last_name username email
    password w = (Raise MissingEmail, w).
Proof.
  intros E. rewrite create_superuser_cases. cbv zeta. now rewrite E.
Qed.

(** X10: when the normalized email is not empty and the username is
    empty or absent, [create_superuser] raises the missing-username error
    and writes nothing. *)
Theorem create_superuser_missing_username :
  normalize_email email <> "" ->
  username = None \/ username = Some "" ->
  UserManager.create_superuser self first_name last_name username email
    password w = (Raise MissingUsername, w).
Proof.
  intros E U. rewrite create_superuser_cases. cbv zeta.
  destruct (normalize_email email) as [|c s]; [contradiction|]; cbn.
  now destruct U as [-> | ->].
Qed.

(** X11: a [create_superuser] that raises a validation or integrity
    error has written nothing: once the insert of the delegated
    [create_user] has passed, the update cannot be refused. *)
Theorem create_superuser_Raise_writes_nothing e w' :
  UserManager.create_superuser self first_name last_name username email
    password w = (Raise e, w') ->
  w' = w.
Proof.
  intros E. rewrite create_superuser_cases in E. cbv zeta in E.
  repeat match type of E with
         | (if ?c then _ else _) = _ => destruct c
         | (match ?x with Some _ => _ | None => _ end) = _ => destruct x
         end;
    now (discriminate E || injection E).
Qed.

(** X12: [create_superuser] returns whenever the normalized email is
    not empty, the username is not empty, both names are present and no
    stored row holds the email as it will be stored or the username. *)
Theorem create_superuser_returns :
  normalize_email email <> "" -> truthy username = true ->
  first_name <> None -> last_name <> None ->
  unused (normalize_email (Some (normalize_email email))) username table ->
  exists u w',
    UserManager.create_superuser self first_name last_name username email
      password w = (Ok u, w').
Proof.
  unfold table, alias; intros Ne Tu Nf Nl U.
  rewrite create_superuser_cases. cbv zeta.
  destruct (normalize_email email) as [|c s] eqn:En; [contradiction|].
  rewrite Tu; cbn [negb truthy].
  destruct first_name as [fn|]; [|contradiction].
  destruct last_name as [ln|]; [|contradiction].
  destruct username as [un|]; [|discriminate].
  rewrite conflicts_unused by exact U.
  eexists; eexists; reflexivity.
Qed.

(** X13: a returning [create_superuser] leaves one more row in the table
    than it found, the account's own with the three flags set, under a key
    no other row has; the rows already stored and the tables of the other
    stores are as they were: the insert and the update meet in one row. *)
Theorem create_superuser_one_row u w' :
  UserManager.create_superuser self first_name last_name username email
    password w = (Ok u, w') ->
  exists r,
    databases w' alias = (table ++ [r])%list /\
    stored_as u r /\
    Row.is_admin r = true /\ Row.is_staff r = true /\
    Row.is_active r = true /\
    (forall r', In r' table -> Row.id r' <> Row.id r) /\
    (forall a, a <> alias -> databases w' a = databases w a).
Proof.
  unfold table, alias; intros E.
  rewrite create_superuser_cases in E. outcome_cases E.
  injection E as <- <-; cbn.
  assert (forall r', In r'
            (databases w (Storage.db_for_write (UserManager._db self))) ->
          Row.id r' <> Storage.next_id
            (databases w (Storage.db_for_write (UserManager._db self))))
    as Fresh.
  { intros r' Hin. apply next_id_fresh in Hin. lia. }
  eexists. rewrite set_table_same.
  split; [apply replace_row_last; [reflexivity | exact Fresh]|].
  split; [now repeat split|].
  repeat split; trivial.
  intros a Na. now rewrite !set_table_other.
Qed.

(** X14: a returning [create_superuser] keeps the unique constraints of
    the table it writes to. *)
Theorem create_superuser_keeps_unique u w' :
  well_formed table ->
  UserManager.create_superuser self first_name last_name username email
    password w = (Ok u, w') ->
  well_formed (databases w' alias).
Proof.
  unfold table, alias; intros W E.
  rewrite create_superuser_cases in E. outcome_cases E.
  injection E as <- <-; cbn. rewrite set_table_same.
  assert (forall r', In r'
            (databases w (Storage.db_for_write (UserManager._db self))) ->
          Row.id r' <> Storage.next_id
            (databases w (Storage.db_for_write (UserManager._db self))))
    as Fresh.
  { intros r' Hin. apply next_id_fresh in Hin. lia. }
  rewrite replace_row_last; [|reflexivity|exact Fresh].
  apply well_formed_app; [exact W|].
  intros r' Hin.
  destruct (conflicts_false _ _ _ r' C Hin (Fresh r' Hin)) as [Ne Nu].
  split; [exact (Fresh r' Hin)|]. split; [exact Ne | exact Nu].
Qed.

(** X15: the account [create_superuser] returns passes [has_perm] for
    every permission and object, and [has_module_perms] for every label. *)
Theorem create_superuser_has_perm u w' :
  UserManager.create_superuser self first_name last_name username email
    password w = (Ok u, w') ->
  forall (Obj : Type) (perm : string) (obj : option Obj) (app_label : string),
    User.has_perm u perm obj = true /\
    User.has_module_perms u app_label = true.
Proof.
  intros E. rewrite create_superuser_cases in E. outcome_cases E.
  injection E as <- <-. intros; split; reflexivity.
Qed.
End SuperuserCreated.

(** ** How the calls compose *)

Section Composition.
Context {F : Framework}.

Variable self : UserManager.t.
Variables first_name last_name username email password : option string.
Variable w : World.

Let alias : string := Storage.db_for_write (UserManager._db self).

(** X16: [create_superuser] stands or falls with the [create_user] it
    delegates to, on the normalized email.  When that call raises,
    [create_superuser] raises the same error from the same storage; when it
    returns an account, [create_superuser] returns that account with the
    four assignments made and the modification time stamped, after one more
    write, an update. *)
Theorem create_superuser_follows_create_user :
  (forall e w1,
      UserManager.create_user self first_name last_name username
        (Some (normalize_email email)) password w = (Raise e, w1) ->
      UserManager.create_superuser self first_name last_name username email
        password w = (Raise e, w1))
  /\ (forall u1 w1,
        UserManager.create_user self first_name last_name username
          (Some (normalize_email email)) password w = (Ok u1, w1) ->
        exists w2 r,
          UserManager.create_superuser self first_name last_name username
            email password w
          = (Ok (User.set_modified_date (Some (clock w1))
                   (User.set_is_superadmin true
                      (User.set_is_staff true
                         (User.set_is_active true
                            (User.set_is_admin true u1))))), w2) /\
          writes w2 = (writes w1 ++ [UPDATE alias r])%list).
Proof.
  unfold alias; split.
  - intros e w1 E.
    rewrite create_superuser_cases. rewrite create_user_cases in E.
    outcome_cases E; cbv zeta;
      repeat match goal with H : truthy _ = _ |- _ => rewrite H; clear H end;
      cbn [negb]; try rewrite C; exact E.
  - intros u1 w1 E.
    rewrite create_superuser_cases. rewrite create_user_cases in E.
    outcome_cases E; cbv zeta;
      repeat match goal with H : truthy _ = _ |- _ => rewrite H; clear H end;
      cbn [negb].
    rewrite C. injection E as <- <-.
    eexists; eexists; split; reflexivity.
Qed.

(** X17: the string representation of an account [create_user] returns
    is its normalized email, and so is that of every profile the account
    is attached to. *)
Theorem created_account_str u w' :
  UserManager.create_user self first_name last_name username email password w
    = (Ok u, w') ->
  User.__str__ u = Some (normalize_email email) /\
  forall p, UserProfile.user p = Some u ->
    UserProfile.__str__ p = Ok (Some (normalize_email email)).
Proof.
  intros E. rewrite create_user_cases in E. outcome_cases E.
  injection E as <- <-. split; [reflexivity|].
  intros p Hp. unfold UserProfile.__str__. now rewrite Hp.
Qed.
End Composition.

(** ** The further statements at concrete inputs *)

(** Runs a call that returns, naming the account and the storage left. *)
Ltac returned c u w' E :=
  destruct c as [[u|?] w'] eqn:E; [|vm_compute in E; discriminate E].


Lemma create_user_jane_identifiers :
  exists u w',
    UserManager.create_user (F := Reference.framework) Reference.objects
      (Some "Jane") (Some "Doe") (Some "jane") (Some "jane@x.com")
      None Reference.empty_world = (Ok u, w') /\
    User.first_name u = Some "Jane" /\ User.last_name u = Some "Doe" /\
    User.username u = Some "jane".
Proof.
  returned (UserManager.create_user (F := Reference.framework)
              Reference.objects (Some "Jane") (Some "Doe") (Some "jane")
              (Some "jane@x.com") None Reference.empty_world) u w' E.
  exists u, w'. split; [reflexivity|].
  destruct (create_user_Ok_identifiers _ _ _ _ _ _ _ _ _ E)
    as (_ & _ & Hf & Hl & Hu).
  now repeat split.
Defined.

Lemma create_user_jane_row :
  exists u w' r,
    UserManager.create_user (F := Reference.framework) Reference.objects
      (Some "Jane") (Some "Doe") (Some "jane") (Some "jane@x.com")
      (Some "secret123") Reference.empty_world = (Ok u, w') /\
    databases w' "default" = [r] /\ User.id u = Some (Row.id r) /\
    databases w' "replica" = [].
Proof.
  returned (UserManager.create_user (F := Reference.framework)
              Reference.objects (Some "Jane") (Some "Doe") (Some "jane")
              (Some "jane@x.com") (Some "secret123") Reference.empty_world)
           u w' E.
  destruct (create_user_appends_row _ _ _ _ _ _ _ _ _ E)
    as (r & T & K & _ & Other & _).
  exists u, w', r. split; [reflexivity|].
  split; [exact T|]. split; [exact K|].
  apply (Other "replica"). discriminate.
Defined.

Lemma create_user_jane_duplicate :
  let jane :=
    Row.mk 1%N "hashed$secret123" "Jane" "Doe" "jane" "jane@x.com" "" None
           0%N 0%N 0%N 0%N false false false false in
  let w1 :=
    {| databases := fun _ => [jane]; clock := 5%N;
       writes := [INSERT "default" jane] |} in
  UserManager.create_user (F := Reference.framework) Reference.objects
    (Some "Janet") (Some "Roe") (Some "janet") (Some "jane@X.COM")
    (Some "other") w1
  = (Raise (IntegrityError "UNIQUE"), w1).
Proof.
  intros jane w1.
  apply (create_user_duplicate_rejected (F := Reference.framework)
           Reference.objects (Some "Janet") (Some "Roe") (Some "janet")
           (Some "jane@X.COM") (Some "other") w1 jane).
  - reflexivity.
  - reflexivity.
  - discriminate.
  - discriminate.
  - left; reflexivity.
  - left; reflexivity.
Defined.


Lemma create_user_jane_no_role :
  exists u w',
    UserManager.create_user (F := Reference.framework) Reference.objects
      (Some "Jane") (Some "Doe") (Some "jane") (Some "jane@x.com")
      (Some "secret123") Reference.empty_world = (Ok u, w') /\
    User.role u = None /\ User.phone_number u = Some "".
Proof.
  returned (UserManager.create_user (F := Reference.framework)
              Reference.objects (Some "Jane") (Some "Doe") (Some "jane")
              (Some "jane@x.com") (Some "secret123") Reference.empty_world)
           u w' E.
  exists u, w'. split; [reflexivity|].
  destruct (create_user_role_unset _ _ _ _ _ _ _ _ _ E) as (Hr & Hp & _).
  now split.
Defined.

Lemma create_user_jane_twice :
  exists u w1,
    UserManager.create_user (F := Reference.framework) Reference.objects
      (Some "Jane") (Some "Doe") (Some "jane") (Some "jane@x.com")
      (Some "secret123") Reference.empty_world = (Ok u, w1) /\
    UserManager.create_user (F := Reference.framework) Reference.objects
      (Some "Janet") (Some "Roe") (Some "jane") (Some "janet@x.com")
      None w1 = (Raise (IntegrityError "UNIQUE"), w1).
Proof.
  returned (UserManager.create_user (F := Reference.framework)
              Reference.objects (Some "Jane") (Some "Doe") (Some "jane")
              (Some "jane@x.com") (Some "secret123") Reference.empty_world)
           u w1 E.
  exists u, w1. split; [reflexivity|].
  apply (create_user_twice_rejected _ _ _ _ _ _ _ _ _ _ _ _ _ _ E).
  - reflexivity.
  - reflexivity.
  - discriminate.
  - discriminate.
  - right; reflexivity.
Defined.

Lemma create_superuser_jane_email :
  exists u w',
    UserManager.create_superuser (F := Reference.framework) Reference.objects
      (Some "Jane") (Some "Doe") (Some "Jane@X.COM") (Some "Jane@X.COM")
      (Some "secret123") Reference.empty_world = (Ok u, w') /\
    User.email u = Some "Jane@x.com" /\ User.username u = Some "Jane@X.COM".
Proof.
  returned (UserManager.create_superuser (F := Reference.framework)
              Reference.objects (Some "Jane") (Some "Doe")
              (Some "Jane@X.COM") (Some "Jane@X.COM") (Some "secret123")
              Reference.empty_world) u w' E.
  exists u, w'. split; [reflexivity|].
  destruct (create_superuser_normalizes_twice _ _ _ _ _ _ _ _ _ E)
    as (He & Hu & _).
  split; [exact He | exact Hu].
Defined.

Lemma create_superuser_no_email :
  UserManager.create_superuser (F := Reference.framework) Reference.objects
    (Some "Jane") (Some "Doe") (Some "jane") None (Some "secret123")
    Reference.empty_world
  = (Raise (ValueError "User must have an email address"),
     Reference.empty_world).
Proof.
  apply (create_superuser_missing_email (F := Reference.framework)).
  reflexivity.
Defined.

Lemma create_superuser_no_username :
  UserManager.create_superuser (F := Reference.framework) Reference.objects
    (Some "Jane") (Some "Doe") None (Some "jane@x.com") (Some "secret123")
    Reference.empty_world
  = (Raise (ValueError "User must have an username"), Reference.empty_world).
Proof.
  apply (create_superuser_missing_username (F := Reference.framework)).
  - discriminate.
  - left; reflexivity.
Defined.

Lemma create_superuser_duplicate_writes_nothing :
  let jane :=
    Row.mk 1%N "hashed$secret123" "Jane" "Doe" "jane" "jane@x.com" "" None
           0%N 0%N 0%N 0%N false false false false in
  let w1 :=
    {| databases := fun _ => [jane]; clock := 5%N;
       writes := [INSERT "default" jane] |} in
  exists e w',
    UserManager.create_superuser (F := Reference.framework) Reference.objects
      (Some "Janet") (Some "Roe") (Some "jane") (Some "janet@x.com")
      (Some "other") w1 = (Raise e, w') /\
    w' = w1.
Proof.
  intros jane w1.
  destruct (UserManager.create_superuser (F := Reference.framework)
              Reference.objects (Some "Janet") (Some "Roe") (Some "jane")
              (Some "janet@x.com") (Some "other") w1)
    as [[?|e] w'] eqn:E; [vm_compute in E; discriminate E|].
  exists e, w'. split; [reflexivity|].
  exact (create_superuser_Raise_writes_nothing _ _ _ _ _ _ _ _ _ E).
Defined.

Lemma create_superuser_jane_returns :
  exists u w',
    UserManager.create_superuser (F := Reference.framework) Reference.objects
      (Some "Jane") (Some "Doe") (Some "jane") (Some "jane@x.com")
      (Some "secret123") Reference.empty_world = (Ok u, w').
Proof.
  apply (create_superuser_returns (F := Reference.framework)).
  - discriminate.
  - reflexivity.
  - discriminate.
  - discriminate.
  - intros r [].
Defined.

Lemma create_superuser_jane_one_row :
  exists u w' r,
    UserManager.create_superuser (F := Reference.framework) Reference.objects
      (Some "Jane") (Some "Doe") (Some "jane") (Some "jane@x.com")
      (Some "secret123") Reference.empty_world = (Ok u, w') /\
    databases w' "default" = [r] /\ Row.is_admin r = true.
Proof.
  returned (UserManager.create_superuser (F := Reference.framework)
              Reference.objects (Some "Jane") (Some "Doe") (Some "jane")
              (Some "jane@x.com") (Some "secret123") Reference.empty_world)
           u w' E.
  destruct (create_superuser_one_row _ _ _ _ _ _ _ _ _ E)
    as (r & T & _ & Ha & _).
  exists u, w', r. split; [reflexivity|]. split; [exact T | exact Ha].
Defined.

Lemma create_superuser_second_keeps_unique :
  let jane :=
    Row.mk 1%N "hashed$secret123" "Jane" "Doe" "jane" "jane@x.com" "" None
           0%N 0%N 0%N 0%N false false false false in
  let w1 :=
    {| databases := fun _ => [jane]; clock := 5%N;
       writes := [INSERT "default" jane] |} in
  exists u w',
    UserManager.create_superuser (F := Reference.framework) Reference.objects
      (Some "Ann") (Some "Roe") (Some "ann") (Some "ann@x.com")
      (Some "other") w1 = (Ok u, w') /\
    well_formed (databases w' "default") /\
    length (databases w' "default") = 2.
Proof.
  intros jane w1.
  returned (UserManager.create_superuser (F := Reference.framework)
              Reference.objects (Some "Ann") (Some "Roe") (Some "ann")
              (Some "ann@x.com") (Some "other") w1) u w' E.
  exists u, w'. split; [reflexivity|]. split.
  - refine (create_superuser_keeps_unique (F := Reference.framework)
              Reference.objects _ _ _ _ _ w1 u w' _ E).
    repeat split; repeat constructor; intros [].
  - vm_compute in E. now injection E as _ <-.
Defined.

Lemma create_superuser_jane_has_perm :
  exists u w',
    UserManager.create_superuser (F := Reference.framework) Reference.objects
      (Some "Jane") (Some "Doe") (Some "jane") (Some "jane@x.com")
      (Some "secret123") Reference.empty_world = (Ok u, w') /\
    User.has_perm u "menu.add_dish" (@None unit) = true.
Proof.
  returned (UserManager.create_superuser (F := Reference.framework)
              Reference.objects (Some "Jane") (Some "Doe") (Some "jane")
              (Some "jane@x.com") (Some "secret123") Reference.empty_world)
           u w' E.
  exists u, w'. split; [reflexivity|].
  exact (proj1 (create_superuser_has_perm _ _ _ _ _ _ _ _ _ E unit
                  "menu.add_dish" None "menu")).
Defined.

Lemma create_superuser_jane_follows :
  exists u1 w1 u w',
    UserManager.create_user (F := Reference.framework) Reference.objects
      (Some "Jane") (Some "Doe") (Some "jane") (Some "jane@x.com")
      (Some "secret123") Reference.empty_world = (Ok u1, w1) /\
    UserManager.create_superuser (F := Reference.framework) Reference.objects
      (Some "Jane") (Some "Doe") (Some "jane") (Some "jane@X.COM")
      (Some "secret123") Reference.empty_world = (Ok u, w') /\
    User.id u = User.id u1 /\ User.is_admin u = true /\
    length (writes w') = S (length (writes w1)).
Proof.
  returned (UserManager.create_user (F := Reference.framework)
              Reference.objects (Some "Jane") (Some "Doe") (Some "jane")
              (Some "jane@x.com") (Some "secret123") Reference.empty_world)
           u1 w1 E.
  destruct (proj2 (create_superuser_follows_create_user
                     (F := Reference.framework) Reference.objects
                     (Some "Jane") (Some "Doe") (Some "jane")
                     (Some "jane@X.COM") (Some "secret123")
                     Reference.empty_world) u1 w1 E) as (w2 & r & E2 & W2).
  exists u1, w1. eexists; exists w2.
  split; [reflexivity|]. split; [exact E2|].
  split; [reflexivity|]. split; [reflexivity|].
  rewrite W2, length_app; cbn. lia.
Defined.

Lemma created_jane_profile_str :
  exists u w',
    UserManager.create_user (F := Reference.framework) Reference.objects
      (Some "Jane") (Some "Doe") (Some "jane") (Some "Jane@X.COM")
      (Some "secret123") Reference.empty_world = (Ok u, w') /\
    User.__str__ u = Some "Jane@x.com" /\
    UserProfile.__str__
      (UserProfile.mk (Some u) None None None None None None None None None
                      None None)
    = Ok (Some "Jane@x.com").
Proof.
  returned (UserManager.create_user (F := Reference.framework)
              Reference.objects (Some "Jane") (Some "Doe") (Some "jane")
              (Some "Jane@X.COM") (Some "secret123") Reference.empty_world)
           u w' E.
  exists u, w'. split; [reflexivity|].
  destruct (created_account_str _ _ _ _ _ _ _ _ _ E) as (Hs & Hp).
  split; [exact Hs|]. now apply Hp.
Defined.
